(** * duration-fns: a shallow embedding and its verified properties

    The library converts between a millisecond count and a breakdown of a
    duration into units.  This development embeds

    - [Time.ts]: [floorTowardsZero], [convertToMilliseconds] and the class
      [Time] (one instance = one heap cell holding [milliseconds]);
    - [normalizeTime.ts]: the table [units] and [normalizeTime];
    - the coercion [toTimeObject] and the reducer [sum].

    JavaScript numbers are kept abstract behind the interface [Number] and
    the program is written once against it.  Two instances are given:

    - [Q_number], exact rational arithmetic: the algebraic properties
      (decomposition, round trip, signs) are proved here, rounding of
      binary64 being abstracted away;
    - [float_number], Rocq's primitive binary64 floats: the properties
      that are about IEEE-754 special values (negative zero, infinities,
      NaN) are proved here.

    A JavaScript object with numeric properties is a finite map from
    property names to numbers. *)

From Stdlib Require Import ZArith QArith Qround Lqa Floats.
From stdpp Require Import gmap strings list fin_maps.

Abbreviation object := (gmap string).

(** ** Numbers *)

Class Number (N : Type) : Type := {
  lit : Z → N;                (* an integer literal *)
  num_add : N → N → N;
  num_sub : N → N → N;
  num_mul : N → N → N;
  num_div : N → N → N;
  num_ltb : N → N → bool;     (* [<] *)
  truthy : N → bool;          (* ToBoolean: false on 0, -0 and NaN *)
  Math_floor : N → N;
  Math_ceil : N → N
}.

Declare Scope num_scope.
Delimit Scope num_scope with num.
Infix "+" := num_add : num_scope.
Infix "-" := num_sub : num_scope.
Infix "*" := num_mul : num_scope.
Infix "/" := num_div : num_scope.
Infix "<?" := num_ltb : num_scope.

(** *** Exact rationals *)

Definition Q_ltb (x y : Q) : bool :=
  match (x ?= y)%Q with Lt => true | _ => false end.

#[export] Instance Q_number : Number Q := {|
  lit := inject_Z;
  num_add := Qplus;
  num_sub := Qminus;
  num_mul := Qmult;
  num_div := Qdiv;
  num_ltb := Q_ltb;
  truthy := λ x, negb (Qeq_bool x 0);
  Math_floor := λ x, inject_Z (Qfloor x);
  Math_ceil := λ x, inject_Z (Qceiling x)
|}.

(** *** IEEE-754 binary64

    [Math.floor] and [Math.ceil] are built-ins of the runtime; they are
    defined here on the decoded float as ECMAScript specifies them: NaN,
    the infinities and the zeros are returned unchanged, a float with a
    non-negative exponent is already an integer, and otherwise the
    magnitude [m * 2^e] (below [2^53]) is divided exactly.  Rounding a
    negative number up keeps its sign, so [Math.ceil(-0.5)] is [-0]. *)

Definition float_of_Z (z : Z) : float :=
  match z with
  | Zneg p => PrimFloat.opp (PrimFloat.of_uint63 (Uint63.of_Z (Zpos p)))
  | _ => PrimFloat.of_uint63 (Uint63.of_Z z)
  end.

Definition float_truthy (x : float) : bool :=
  match Prim2SF x with
  | S754_zero _ | S754_nan => false
  | _ => true
  end.

Definition float_floor (x : float) : float :=
  match Prim2SF x with
  | S754_finite s m e =>
      if (0 <=? e)%Z then x
      else
        let d := (2 ^ (- e))%Z in
        if s then PrimFloat.opp (float_of_Z ((Zpos m + d - 1) / d))
        else float_of_Z (Zpos m / d)
  | _ => x
  end.

Definition float_ceil (x : float) : float :=
  match Prim2SF x with
  | S754_finite s m e =>
      if (0 <=? e)%Z then x
      else
        let d := (2 ^ (- e))%Z in
        if s then PrimFloat.opp (float_of_Z (Zpos m / d))
        else float_of_Z ((Zpos m + d - 1) / d)
  | _ => x
  end.

#[export] Instance float_number : Number float := {|
  lit := float_of_Z;
  num_add := PrimFloat.add;
  num_sub := PrimFloat.sub;
  num_mul := PrimFloat.mul;
  num_div := PrimFloat.div;
  num_ltb := PrimFloat.ltb;
  truthy := float_truthy;
  Math_floor := float_floor;
  Math_ceil := float_ceil
|}.

(** ** Time.ts *)

Section TimeTs.
Context {N : Type} `{!Number N}.
Local Open Scope num_scope.

Definition MILLISECONDS_IN_A_SECOND : N := lit 1000.
Definition MILLISECONDS_IN_A_MINUTE : N := MILLISECONDS_IN_A_SECOND * lit 60.
Definition MILLISECONDS_IN_AN_HOUR : N := MILLISECONDS_IN_A_MINUTE * lit 60.
Definition MILLISECONDS_IN_A_DAY : N := MILLISECONDS_IN_AN_HOUR * lit 24.

(** [a || b] on numbers. *)
Definition js_or (a b : N) : N := if truthy a then a else b.

Definition floorTowardsZero (value : N) : N :=
  if value <? lit 0 then js_or (Math_ceil value) (lit 0)
  else Math_floor value.

(** The destructuring pattern [{ days = 0, ... }] reads five properties
    of the argument, each defaulting to 0 when absent. *)
Definition convertToMilliseconds (time : object N) : N :=
  let days := default (lit 0) (time !! "days") in
  let hours := default (lit 0) (time !! "hours") in
  let minutes := default (lit 0) (time !! "minutes") in
  let seconds := default (lit 0) (time !! "seconds") in
  let milliseconds := default (lit 0) (time !! "milliseconds") in
  days * MILLISECONDS_IN_A_DAY +
  hours * MILLISECONDS_IN_AN_HOUR +
  minutes * MILLISECONDS_IN_A_MINUTE +
  seconds * MILLISECONDS_IN_A_SECOND +
  milliseconds.
End TimeTs.

(** *** The class [Time]

    An instance is a reference into a store; its sole state is the
    property [milliseconds].  A method is a store transformer that may
    fail only on a reference that is not allocated. *)

Module Time.
Abbreviation ref := nat.
Abbreviation store := (gmap nat).

Section Class.
Context {N : Type} `{!Number N}.
Local Open Scope num_scope.

Definition M (A : Type) : Type := store N → option (A * store N).

Definition ret {A} (a : A) : M A := λ σ, Some (a, σ).
Definition bind {A B} (m : M A) (k : A → M B) : M B :=
  λ σ, match m σ with
       | Some (a, σ') => k a σ'
       | None => None
       end.

Local Notation "'let*' x ':=' m 'in' k" := (bind m (λ x, k))
  (at level 10, x name, m at level 100, k at level 200).

(** [this.milliseconds] *)
Definition milliseconds (this : ref) : M N :=
  λ σ, match σ !! this with
       | Some ms => Some (ms, σ)
       | None => None
       end.

(** [new Time(time)] *)
Definition new (time : object N) : M ref :=
  λ σ, let this := fresh (dom σ) in
       Some (this, <[this := convertToMilliseconds time]> σ).

Definition add (this : ref) (time : object N) : M ref :=
  let* ms := milliseconds this in
  new {[ "milliseconds" := ms + convertToMilliseconds time ]}.

Definition subtract (this : ref) (time : object N) : M ref :=
  let* ms := milliseconds this in
  new {[ "milliseconds" := ms - convertToMilliseconds time ]}.

Definition multiply (this : ref) (multiplier : N) : M ref :=
  let* ms := milliseconds this in
  new {[ "milliseconds" := ms * multiplier ]}.

Definition divide (this : ref) (divisor : N) : M ref :=
  let* ms := milliseconds this in
  new {[ "milliseconds" := ms / divisor ]}.

Definition toMilliseconds (this : ref) : M N := milliseconds this.

Definition toSeconds (this : ref) : M N :=
  let* ms := milliseconds this in ret (ms / MILLISECONDS_IN_A_SECOND).

Definition toMinutes (this : ref) : M N :=
  let* ms := milliseconds this in ret (ms / MILLISECONDS_IN_A_MINUTE).

Definition toHours (this : ref) : M N :=
  let* ms := milliseconds this in ret (ms / MILLISECONDS_IN_AN_HOUR).

Definition toDays (this : ref) : M N :=
  let* ms := milliseconds this in ret (ms / MILLISECONDS_IN_A_DAY).

Definition toComponents (this : ref) : M (object N) :=
  let* d := toDays this in
  let days := floorTowardsZero d in
  let* tally := subtract this {[ "days" := days ]} in
  let* h := toHours tally in
  let hours := floorTowardsZero h in
  let* tally := subtract tally {[ "hours" := hours ]} in
  let* m := toMinutes tally in
  let minutes := floorTowardsZero m in
  let* tally := subtract tally {[ "minutes" := minutes ]} in
  let* s := toSeconds tally in
  let seconds := floorTowardsZero s in
  let* tally := subtract tally {[ "seconds" := seconds ]} in
  let* milliseconds := milliseconds tally in
  ret (<[ "days" := days ]> (<[ "hours" := hours ]> (<[ "minutes" := minutes ]>
        (<[ "seconds" := seconds ]> {[ "milliseconds" := milliseconds ]})))).

Definition toJSON (this : ref) : M (object N) := toComponents this.
End Class.
End Time.


(** ** Run-time values

    What a caller can pass where the declared type is
    [string | number | Partial<Time>]: the type is erased at run time. *)

Inductive JSValue (N : Type) : Type :=
  | VString (s : string)
  | VNumber (n : N)
  | VObject (o : object N)
  | VUndefined
  | VNull
  | VBoolean (b : bool).
Arguments VString {N} s.
Arguments VNumber {N} n.
Arguments VObject {N} o.
Arguments VUndefined {N}.
Arguments VNull {N}.
Arguments VBoolean {N} b.

Inductive JSType : Type := TString | TNumber | TObject | TUndefined | TBoolean.

Definition typeof {N} (v : JSValue N) : JSType :=
  match v with
  | VString _ => TString
  | VNumber _ => TNumber
  | VObject _ | VNull => TObject
  | VUndefined => TUndefined
  | VBoolean _ => TBoolean
  end.

(** The own enumerable properties an object spread [{ ...v }] copies:
    those of an object, none for [null], [undefined], a number or a
    boolean.  (No function below spreads a string.) *)
Definition own_properties {N} (v : JSValue N) : object N :=
  match v with
  | VObject o => o
  | _ => ∅
  end.

(** The shapes the declared input type admits. *)
Definition accepted_shape {N} (v : JSValue N) : bool :=
  match v with
  | VString _ | VNumber _ | VObject _ => true
  | _ => false
  end.

(** ** Components: coercion, unit conversion, normalizeTime, sum *)

(** [for (const x of xs) { s = f(s, x) }] where the body may throw. *)
Fixpoint for_of {S A : Type} (f : S → A → option S) (xs : list A) (s : S)
  : option S :=
  match xs with
  | [] => Some s
  | x :: xs' => match f s x with
                | Some s' => for_of f xs' s'
                | None => None
                end
  end.

Section Components.
Context {N : Type} `{!Number N}.
Local Open Scope num_scope.

(** The ISO-8601 parser is not part of the embedded sources: it is a
    parameter, [None] standing for its parse error. *)
Variable parseISODuration : string → option (object N).

(** Modelled from the spec: the constant [DEFAULT_TIME] of
    [lib/constants] is missing; it is the all-zero default with the
    eight fields of the components structure. *)
Definition DEFAULT_TIME : object N :=
  <[ "years" := lit 0 ]> (<[ "months" := lit 0 ]> (<[ "weeks" := lit 0 ]>
  (<[ "days" := lit 0 ]> (<[ "hours" := lit 0 ]> (<[ "minutes" := lit 0 ]>
  (<[ "seconds" := lit 0 ]> {[ "milliseconds" := lit 0 ]})))))).

Definition toTimeObject (time : JSValue N) : option (object N) :=
  match time with
  | VString s => parseISODuration s                      (* typeof time === 'string' *)
  | VNumber n => Some (<[ "milliseconds" := n ]> DEFAULT_TIME)  (* typeof time === 'number' *)
  | _ => Some (own_properties time ∪ DEFAULT_TIME)       (* { ...DEFAULT_TIME, ...time } *)
  end.

(** Modelled from the spec: the unit factors beyond those of [Time.ts]
    are missing; a week is seven days, a year 365.25 days and a month a
    twelfth of a year. *)
Definition MILLISECONDS_IN_A_WEEK : N := MILLISECONDS_IN_A_DAY * lit 7.
Definition MILLISECONDS_IN_A_YEAR : N :=
  MILLISECONDS_IN_A_DAY * (lit 36525 / lit 100).
Definition MILLISECONDS_IN_A_MONTH : N := MILLISECONDS_IN_A_YEAR / lit 12.

(** Modelled from the spec: the module [unitConversion] is missing.
    [toMilliseconds] resolves the input and sums each field times its
    factor, a missing field contributing 0; [toUnit] divides the
    millisecond value by the unit's factor. *)
Definition components_ms (o : object N) : N :=
  default (lit 0) (o !! "years") * MILLISECONDS_IN_A_YEAR +
  default (lit 0) (o !! "months") * MILLISECONDS_IN_A_MONTH +
  default (lit 0) (o !! "weeks") * MILLISECONDS_IN_A_WEEK +
  default (lit 0) (o !! "days") * MILLISECONDS_IN_A_DAY +
  default (lit 0) (o !! "hours") * MILLISECONDS_IN_AN_HOUR +
  default (lit 0) (o !! "minutes") * MILLISECONDS_IN_A_MINUTE +
  default (lit 0) (o !! "seconds") * MILLISECONDS_IN_A_SECOND +
  default (lit 0) (o !! "milliseconds").

Definition toMilliseconds (time : JSValue N) : option N :=
  components_ms <$> toTimeObject time.

Definition toUnit (factor : N) (time : JSValue N) : option N :=
  (λ ms, ms / factor) <$> toMilliseconds time.

Definition toSeconds := toUnit MILLISECONDS_IN_A_SECOND.
Definition toMinutes := toUnit MILLISECONDS_IN_A_MINUTE.
Definition toHours := toUnit MILLISECONDS_IN_AN_HOUR.
Definition toDays := toUnit MILLISECONDS_IN_A_DAY.
Definition toWeeks := toUnit MILLISECONDS_IN_A_WEEK.
Definition toMonths := toUnit MILLISECONDS_IN_A_MONTH.
Definition toYears := toUnit MILLISECONDS_IN_A_YEAR.

(** Modelled from the spec: [subtractTime] of [calculations] is missing;
    it resolves both arguments to milliseconds and returns [a - b]. *)
Definition subtractTime (a b : JSValue N) : option N :=
  match toMilliseconds a, toMilliseconds b with
  | Some x, Some y => Some (x - y)
  | _, _ => None
  end.

(** *** normalizeTime.ts *)

Definition units : list (string * (JSValue N → option N)) :=
  [ ("years", toYears);
    ("months", toMonths);
    ("weeks", toWeeks);
    ("days", toDays);
    ("hours", toHours);
    ("minutes", toMinutes);
    ("seconds", toSeconds);
    ("milliseconds", toMilliseconds) ].

(** The loop body; the state is [(tally, output)].  [output[key]] is read
    back from the object just assigned to. *)
Definition normalizeTime_body (st : JSValue N * object N)
    (u : string * (JSValue N → option N)) : option (JSValue N * object N) :=
  let '(tally, output) := st in
  let '(key, convertTo) := u in
  match convertTo tally with
  | None => None
  | Some c =>
      let output := <[ key := floorTowardsZero c ]> output in
      match output !! key with
      | None => None
      | Some v =>
          match subtractTime tally (VObject {[ key := v ]}) with
          | None => None
          | Some tally' => Some (VNumber tally', output)
          end
      end
  end.

Definition normalizeTime (time : JSValue N) : option (object N) :=
  snd <$> for_of normalizeTime_body units (time, DEFAULT_TIME).

(** *** sum *)

(** Modelled from the spec: [UNIT_KEYS] and [ZERO] of [lib/units] and
    [parse] are missing.  The keys are the eight unit names in their
    fixed order, [ZERO] the all-zero components, and [parse] the
    coercion entry point, of which [toTimeObject] is the source. *)
Definition UNIT_KEYS : list string :=
  [ "years"; "months"; "weeks"; "days";
    "hours"; "minutes"; "seconds"; "milliseconds" ].


End Components.

(** ** The specification's reading of normalization

    These definitions follow the words of the specification, not the
    code: the integer part towards zero, the fixed table of units with
    their millisecond factors, and the greedy decomposition that carries a
    remainder from each unit to the next smaller one. *)

(** The integer obtained by discarding the fractional part. *)
Definition Qtrunc (x : Q) : Z := Z.quot (Qnum x) (Zpos (Qden x)).

Definition unit_factors : list (string * Q) :=
  [ ("years", 31557600000%Q);
    ("months", 2629800000%Q);
    ("weeks", 604800000%Q);
    ("days", 86400000%Q);
    ("hours", 3600000%Q);
    ("minutes", 60000%Q);
    ("seconds", 1000%Q);
    ("milliseconds", 1%Q) ].

Fixpoint decompose (us : list (string * Q)) (remainder : Q)
  : list (string * Q) :=
  match us with
  | [] => []
  | (key, factor) :: us' =>
      let component := inject_Z (Qtrunc (remainder / factor)) in
      (key, component) :: decompose us' (remainder - component * factor)%Q
  end.

(** What is left after the units [us] have been taken out. *)
Fixpoint residue (us : list (string * Q)) (remainder : Q) : Q :=
  match us with
  | [] => remainder
  | (_, factor) :: us' =>
      residue us' (remainder - inject_Z (Qtrunc (remainder / factor)) * factor)%Q
  end.

Definition normalize_spec (m : Q) : object Q :=
  list_to_map (decompose unit_factors m).

(** ** Notions used in the statements *)

Section Notions.
Context {N : Type} `{!Number N}.
Local Open Scope num_scope.

(** What [new Time({ milliseconds: v })] stores. *)
Definition wrap (v : N) : N := convertToMilliseconds {[ "milliseconds" := v ]}.

(** An operation run in [σ] returns a reference that was not allocated
    in [σ] and leaves every instance of [σ] as it was. *)
Definition returns_new_instance (op : Time.M Time.ref) (σ : Time.store N) : Prop :=
  ∃ r σ', op σ = Some (r, σ') ∧ σ !! r = None ∧ is_Some (σ' !! r) ∧
          ∀ l v, σ !! l = Some v → σ' !! l = Some v.

(** The value of [tally] after [tally.subtract({ key: v })]. *)
Definition tally_after (tally : N) (key : string) (v : N) : N :=
  wrap (tally - convertToMilliseconds {[ key := v ]}).

Definition components_of (ms : N) : object N :=
  let days := floorTowardsZero (ms / MILLISECONDS_IN_A_DAY) in
  let t1 := tally_after ms "days" days in
  let hours := floorTowardsZero (t1 / MILLISECONDS_IN_AN_HOUR) in
  let t2 := tally_after t1 "hours" hours in
  let minutes := floorTowardsZero (t2 / MILLISECONDS_IN_A_MINUTE) in
  let t3 := tally_after t2 "minutes" minutes in
  let seconds := floorTowardsZero (t3 / MILLISECONDS_IN_A_SECOND) in
  let t4 := tally_after t3 "seconds" seconds in
  <[ "days" := days ]> (<[ "hours" := hours ]> (<[ "minutes" := minutes ]>
    (<[ "seconds" := seconds ]> {[ "milliseconds" := t4 ]}))).

(** An object that has the eight fields. *)
Definition complete (o : object N) : Prop :=
  ∀ k, k ∈ UNIT_KEYS → is_Some (o !! k).

(** The parser's contract: what it returns is a components object. *)
Definition parser_complete (p : string → option (object N)) : Prop :=
  ∀ s d, p s = Some d → complete d.


End Notions.

Definition is_neg_zero (x : float) : bool :=
  match Prim2SF x with
  | S754_zero true => true
  | _ => false
  end.

(** A row of the table [units] agrees with a row of [unit_factors]: same
    key, and the converter divides the millisecond value by the factor. *)
Definition unit_agrees (p : string → option (object Q))
    (u : string * (JSValue Q → option Q)) (kf : string * Q) : Prop :=
  u.1 = kf.1 ∧ kf ∈ unit_factors ∧
  (∀ time, toMilliseconds p time = None → u.2 time = None) ∧
  (∀ time m, toMilliseconds p time = Some m →
             ∃ c, u.2 time = Some c ∧ c == m / kf.2).

(** Writing the pairs of a decomposition into an object, in order. *)
Definition assign (output : object Q) (kvs : list (string * Q)) : object Q :=
  foldl (λ o kv, <[ kv.1 := kv.2 ]> o) output kvs.



(** A parser that knows one string, the ISO-8601 form of the zero
    duration, and rejects every other: it stands for the ISO-8601 parser
    in closed examples. *)
Definition parse_PT0S {N : Type} `{!Number N} (s : string) : option (object N) :=
  if decide (s = "PT0S") then Some DEFAULT_TIME else None.

(** ** Notions used in the further properties *)

(** A float that [Math.floor] and [Math.ceil] return unchanged: NaN, an
    infinity, or a finite float with a non-negative exponent (an integer
    of magnitude [2^52] or more). *)
Definition float_unrounded (x : float) : bool :=
  match Prim2SF x with
  | S754_nan | S754_infinity _ => true
  | S754_finite _ _ e => (0 <=? e)%Z
  | S754_zero _ => false
  end.


(** The object with every field negated. *)
Definition negate (o : object Q) : object Q := Qopp <$> o.


(** * Properties *)

Ltac unfold_num :=
  cbn [lit num_add num_sub num_mul num_div num_ltb truthy Math_floor
       Math_ceil Q_number] in *.

Ltac lookup_solve :=
  repeat (rewrite ?lookup_insert_eq, ?lookup_singleton_eq;
          rewrite ?lookup_insert_ne, ?lookup_singleton_ne by done).


(** ** Exact arithmetic *)

Lemma Q_ltb_lt (x y : Q) : Q_ltb x y = true ↔ (x < y)%Q.
Proof.
  unfold Q_ltb. rewrite Qlt_alt. destruct (x ?= y)%Q; intuition congruence.
Qed.

Lemma Q_ltb_ge (x y : Q) : Q_ltb x y = false ↔ (y <= x)%Q.
Proof.
  rewrite <- not_true_iff_false, Q_ltb_lt. split.
  - apply Qnot_lt_le.
  - intros H1 H2. lra.
Qed.

Lemma Qtrunc_neg (x : Q) : (x < 0)%Q → Qtrunc x = Qceiling x.
Proof.
  destruct x as [n d]. unfold Qlt, Qtrunc, Qceiling, Qfloor. cbn.
  intros Hn.
  replace n with (- - n)%Z at 1 by lia.
  rewrite Z.quot_opp_l by lia.
  rewrite Z.quot_div_nonneg by lia. reflexivity.
Qed.

Lemma Qtrunc_nonneg (x : Q) : (0 <= x)%Q → Qtrunc x = Qfloor x.
Proof.
  destruct x as [n d]. unfold Qle, Qtrunc, Qfloor. cbn.
  intros Hn. apply Z.quot_div_nonneg; lia.
Qed.

Lemma Qtrunc_comp (x y : Q) : x == y → Qtrunc x = Qtrunc y.
Proof.
  intros Hxy. destruct (Qlt_le_dec x 0) as [Hx|Hx].
  - rewrite !Qtrunc_neg by lra. by apply Qceiling_comp.
  - rewrite !Qtrunc_nonneg by lra. by apply Qfloor_comp.
Qed.

Lemma Qtrunc_inject_Z (z : Z) : Qtrunc (inject_Z z) = z.
Proof. unfold Qtrunc. cbn. apply Z.quot_1_r. Qed.

(** Towards zero: between 0 and [x], less than one unit away from [x]. *)
Lemma Qtrunc_nonneg_bounds (x : Q) :
  (0 <= x)%Q → (0 <= inject_Z (Qtrunc x) <= x)%Q ∧ (x < inject_Z (Qtrunc x) + 1)%Q.
Proof.
  intros Hx. rewrite Qtrunc_nonneg by done.
  pose proof (Qfloor_le x) as H1. pose proof (Qlt_floor x) as H2.
  rewrite inject_Z_plus in H2.
  assert (0 <= Qfloor x)%Z as H3.
  { rewrite <- (Qfloor_Z 0). by apply Qfloor_resp_le. }
  rewrite Zle_Qle in H3.
  change (inject_Z 0) with 0%Q in H3. change (inject_Z 1) with 1%Q in H2.
  repeat split; lra.
Qed.

Lemma Qtrunc_neg_bounds (x : Q) :
  (x <= 0)%Q → (x <= inject_Z (Qtrunc x) <= 0)%Q ∧ (inject_Z (Qtrunc x) - 1 < x)%Q.
Proof.
  intros Hx. destruct (Qlt_le_dec x 0) as [Hneg|Hz].
  - rewrite Qtrunc_neg by done.
    pose proof (Qle_ceiling x) as H1. pose proof (Qceiling_lt x) as H2.
    unfold Z.sub in H2. rewrite inject_Z_plus in H2.
    assert (Qceiling x <= 0)%Z as H3.
    { rewrite <- (Qceiling_Z 0). apply Qceiling_resp_le.
      change (inject_Z 0) with 0%Q. lra. }
    rewrite Zle_Qle in H3. change (inject_Z (- (1))) with (- (1))%Q in H2.
    change (inject_Z 0) with 0%Q in H3.
    repeat split; lra.
  - assert (x == inject_Z 0) as Hx0 by (change (inject_Z 0) with 0%Q; lra).
    rewrite (Qtrunc_comp _ _ Hx0), Qtrunc_inject_Z.
    change (inject_Z 0) with 0%Q. repeat split; lra.
Qed.

Lemma floorTowardsZero_Qtrunc (x : Q) :
  floorTowardsZero x = inject_Z (Qtrunc x).
Proof.
  unfold floorTowardsZero, js_or. unfold_num.
  destruct (Q_ltb x (inject_Z 0)) eqn:Hlt.
  - apply Q_ltb_lt in Hlt. rewrite Qtrunc_neg by done.
    destruct (Qeq_bool (inject_Z (Qceiling x)) 0) eqn:Hz; [|done].
    apply Qeq_bool_eq in Hz. cbn.
    f_equal. symmetry. unfold Qeq in Hz. cbn in Hz. lia.
  - apply Q_ltb_ge in Hlt. by rewrite Qtrunc_nonneg.
Qed.

(** ** The class [Time]: allocation and framing *)

Section TimeClass.
Context {N : Type} `{!Number N}.
Local Open Scope num_scope.
Implicit Types (σ : Time.store N) (this : Time.ref) (time : object N).

Lemma fresh_unallocated σ : σ !! fresh (dom σ) = None.
Proof. apply not_elem_of_dom, is_fresh. Qed.

Lemma convertToMilliseconds_milliseconds (v : N) :
  convertToMilliseconds {[ "milliseconds" := v ]} =
  lit 0 * MILLISECONDS_IN_A_DAY + lit 0 * MILLISECONDS_IN_AN_HOUR +
  lit 0 * MILLISECONDS_IN_A_MINUTE + lit 0 * MILLISECONDS_IN_A_SECOND + v.
Proof.
  unfold convertToMilliseconds.
  rewrite !(lookup_singleton_ne "milliseconds") by done.
  by rewrite lookup_singleton_eq.
Qed.


Lemma add_eq σ this ms time :
  σ !! this = Some ms →
  Time.add this time σ =
  Some (fresh (dom σ), <[ fresh (dom σ) := wrap (ms + convertToMilliseconds time) ]> σ).
Proof. intros Hms. unfold Time.add, Time.bind, Time.milliseconds. by rewrite Hms. Qed.

Lemma subtract_eq σ this ms time :
  σ !! this = Some ms →
  Time.subtract this time σ =
  Some (fresh (dom σ), <[ fresh (dom σ) := wrap (ms - convertToMilliseconds time) ]> σ).
Proof. intros Hms. unfold Time.subtract, Time.bind, Time.milliseconds. by rewrite Hms. Qed.

Lemma multiply_eq σ this ms (multiplier : N) :
  σ !! this = Some ms →
  Time.multiply this multiplier σ =
  Some (fresh (dom σ), <[ fresh (dom σ) := wrap (ms * multiplier) ]> σ).
Proof. intros Hms. unfold Time.multiply, Time.bind, Time.milliseconds. by rewrite Hms. Qed.

Lemma divide_eq σ this ms (divisor : N) :
  σ !! this = Some ms →
  Time.divide this divisor σ =
  Some (fresh (dom σ), <[ fresh (dom σ) := wrap (ms / divisor) ]> σ).
Proof. intros Hms. unfold Time.divide, Time.bind, Time.milliseconds. by rewrite Hms. Qed.

Lemma alloc_returns_new_instance (op : Time.M Time.ref) σ (v : N) :
  op σ = Some (fresh (dom σ), <[ fresh (dom σ) := v ]> σ) →
  returns_new_instance op σ.
Proof.
  intros Hop. exists (fresh (dom σ)), (<[ fresh (dom σ) := v ]> σ).
  split; [done|]. split; [apply fresh_unallocated|].
  split; [rewrite lookup_insert_eq; by eexists|].
  intros l w Hl. rewrite lookup_insert_ne; [done|].
  intros <-. by rewrite fresh_unallocated in Hl.
Qed.

(** C9: no duration value is mutated after construction.  For every
    instance [this] of a store and each of [add], [subtract], [multiply]
    and [divide], the operation returns a new instance (a reference not
    allocated before, hence different from [this]) and the field
    [milliseconds] of [this], like that of every other instance, is
    unchanged afterwards. *)
Theorem operations_do_not_mutate σ this ms time (k : N) :
  σ !! this = Some ms →
  ∀ op, op ∈ [Time.add this time; Time.subtract this time;
              Time.multiply this k; Time.divide this k] →
    ∃ r σ', op σ = Some (r, σ') ∧
            r ≠ this ∧ σ !! r = None ∧ is_Some (σ' !! r) ∧
            σ' !! this = Some ms ∧
            Time.milliseconds this σ' = Some (ms, σ') ∧
            ∀ l v, σ !! l = Some v → σ' !! l = Some v.
Proof.
  intros Hms op Hop.
  assert (returns_new_instance op σ) as (r & σ' & Hrun & Hr & Hr' & Hframe).
  { rewrite !elem_of_cons, elem_of_nil in Hop.
    destruct Hop as [->|[->|[->|[->|[]]]]]; eapply alloc_returns_new_instance.
    - by apply add_eq.
    - by apply subtract_eq.
    - by apply multiply_eq.
    - by apply divide_eq. }
  exists r, σ'. split; [done|]. split; [congruence|].
  repeat (split; [done|]).
  split; [by apply Hframe|]. split; [|done].
  unfold Time.milliseconds. by rewrite (Hframe _ _ Hms).
Qed.
End TimeClass.

(** ** IEEE-754 special values *)



Lemma float_ltb_zero (x : float) :
  PrimFloat.ltb x 0 = match Prim2SF x with
                      | S754_finite true _ _ | S754_infinity true => true
                      | _ => false
                      end.
Proof.
  rewrite FloatAxioms.ltb_spec. change (Prim2SF 0) with (S754_zero false).
  by destruct (Prim2SF x) as [[]|[]| |[] ? ?].
Qed.


(** Division by positive zero, read off the decoded operands. *)
Lemma float_div_zero (x : float) :
  Prim2SF (x / 0)%float =
  match Prim2SF x with
  | S754_zero _ | S754_nan => S754_nan
  | S754_infinity s | S754_finite s _ _ => S754_infinity s
  end.
Proof.
  rewrite FloatAxioms.div_spec. change (Prim2SF 0) with (S754_zero false).
  by destruct (Prim2SF x) as [[]|[]| |[] ? ?].
Qed.

Lemma float_wrap_div_zero (x : float) :
  Prim2SF (wrap (x / 0)%float) =
  match Prim2SF x with
  | S754_zero _ | S754_nan => S754_nan
  | S754_infinity s | S754_finite s _ _ => S754_infinity s
  end.
Proof.
  unfold wrap. rewrite convertToMilliseconds_milliseconds.
  cbn [lit num_add num_mul float_number].
  match goal with
  | |- Prim2SF (?c + _)%float = _ =>
      replace c with 0%float by (vm_compute; reflexivity)
  end.
  rewrite FloatAxioms.add_spec, float_div_zero. change (Prim2SF 0) with (S754_zero false).
  by destruct (Prim2SF x) as [[]|[]| |[] ? ?].
Qed.

(** C7: division by zero never raises.  For every instance holding the
    value [x], [divide(0)] returns an instance, and the value it holds is
    [Infinity] when [x] is positive, [-Infinity] when [x] is negative and
    [NaN] when [x] is zero, as IEEE-754 division gives. *)
Theorem divide_by_zero (σ : Time.store float) (this : Time.ref) (x : float) :
  σ !! this = Some x →
  ∃ r σ' v, Time.divide this 0%float σ = Some (r, σ') ∧
            Time.toMilliseconds r σ' = Some (v, σ') ∧
            ((0 <? x)%float = true → v = infinity) ∧
            ((x <? 0)%float = true → v = neg_infinity) ∧
            ((x =? 0)%float = true → v = nan).
Proof.
  intros Hx. eexists _, _, (wrap (x / 0)%float).
  split; [by apply divide_eq|].
  split.
  { unfold Time.toMilliseconds, Time.milliseconds. by rewrite lookup_insert_eq. }
  pose proof (float_wrap_div_zero x) as Hv.
  rewrite FloatAxioms.ltb_spec, float_ltb_zero, FloatAxioms.eqb_spec.
  change (Prim2SF 0) with (S754_zero false).
  repeat split; intros Hc; apply Prim2SF_inj; rewrite Hv;
    by destruct (Prim2SF x) as [[]|[]| |[] ? ?].
Qed.

(** ** [toComponents] as a function of the stored value *)

Section ToComponents.
Context {N : Type} `{!Number N}.
Local Open Scope num_scope.
Implicit Types (σ : Time.store N) (this : Time.ref) (time : object N).

Lemma bind_milliseconds {B} σ this ms (k : N → Time.M B) :
  σ !! this = Some ms → Time.bind (Time.milliseconds this) k σ = k ms σ.
Proof. intros Hms. unfold Time.bind, Time.milliseconds. by rewrite Hms. Qed.

Lemma bind_ret {A B} (a : A) (k : A → Time.M B) σ :
  Time.bind (Time.ret a) k σ = k a σ.
Proof. reflexivity. Qed.

Lemma bind_bind {A B C} (m : Time.M A) (f : A → Time.M B) (g : B → Time.M C) σ :
  Time.bind (Time.bind m f) g σ = Time.bind m (λ a, Time.bind (f a) g) σ.
Proof. unfold Time.bind. by destruct (m σ) as [[a σ']|]. Qed.

Lemma bind_subtract {B} σ this ms time (k : Time.ref → Time.M B) :
  σ !! this = Some ms →
  Time.bind (Time.subtract this time) k σ =
  k (fresh (dom σ))
    (<[ fresh (dom σ) := wrap (ms - convertToMilliseconds time) ]> σ).
Proof. intros Hms. unfold Time.bind at 1. by rewrite (subtract_eq _ _ _ _ Hms). Qed.

Lemma insert_fresh_frame σ (v : N) l w :
  σ !! l = Some w → <[ fresh (dom σ) := v ]> σ !! l = Some w.
Proof.
  intros Hl. rewrite lookup_insert_ne; [done|].
  intros <-. by rewrite fresh_unallocated in Hl.
Qed.

Lemma toComponents_eq σ this ms :
  σ !! this = Some ms →
  ∃ σ', Time.toComponents this σ = Some (components_of ms, σ') ∧
        ∀ l v, σ !! l = Some v → σ' !! l = Some v.
Proof.
  intros Hms. unfold Time.toComponents.
  unfold Time.toDays, Time.toHours, Time.toMinutes, Time.toSeconds.
  rewrite bind_bind, (bind_milliseconds _ _ _ _ Hms), bind_ret.
  rewrite (bind_subtract _ _ _ _ _ Hms).
  set (σ1 := <[ fresh (dom σ) := _ ]> σ).
  rewrite bind_bind. erewrite bind_milliseconds by apply lookup_insert_eq.
  rewrite bind_ret. erewrite bind_subtract by apply lookup_insert_eq.
  set (σ2 := <[ fresh (dom σ1) := _ ]> σ1).
  rewrite bind_bind. erewrite bind_milliseconds by apply lookup_insert_eq.
  rewrite bind_ret. erewrite bind_subtract by apply lookup_insert_eq.
  set (σ3 := <[ fresh (dom σ2) := _ ]> σ2).
  rewrite bind_bind. erewrite bind_milliseconds by apply lookup_insert_eq.
  rewrite bind_ret. erewrite bind_subtract by apply lookup_insert_eq.
  set (σ4 := <[ fresh (dom σ3) := _ ]> σ3).
  erewrite bind_milliseconds by apply lookup_insert_eq.
  exists σ4. split; [reflexivity|].
  intros l v Hl. by do 4 apply insert_fresh_frame.
Qed.
End ToComponents.

(** ** One step of the decomposition, in exact arithmetic *)


Lemma Qdiv_nonneg (r f : Q) : (0 < f)%Q → (0 <= r)%Q → (0 <= r / f)%Q.
Proof.
  intros Hf Hr. apply Qle_shift_div_l; [done|]. lra.
Qed.

Lemma Qdiv_mult_cancel (r f : Q) : (0 < f)%Q → (r / f * f == r)%Q.
Proof. intros Hf. field. lra. Qed.


Lemma step_nonneg (r f : Q) :
  (0 < f)%Q → (0 <= r)%Q →
  (0 <= inject_Z (Qtrunc (r / f)))%Q ∧
  (0 <= r - inject_Z (Qtrunc (r / f)) * f < f)%Q.
Proof.
  intros Hf Hr.
  destruct (Qtrunc_nonneg_bounds (r / f) (Qdiv_nonneg _ _ Hf Hr)) as [[H1 H2] H3].
  pose proof (Qdiv_mult_cancel r f Hf) as Hc.
  assert (inject_Z (Qtrunc (r / f)) * f <= r / f * f)%Q as H4.
  { apply Qmult_le_compat_r; lra. }
  assert (r / f * f < (inject_Z (Qtrunc (r / f)) + 1) * f)%Q as H5.
  { apply Qmult_lt_compat_r; lra. }
  repeat split; lra.
Qed.

(** ** [Time] in exact arithmetic *)

Lemma wrap_Q (v : Q) : wrap v == v.
Proof.
  unfold wrap. rewrite convertToMilliseconds_milliseconds. unfold_num.
  change (inject_Z 0) with 0%Q. ring.
Qed.








(** ** Components in exact arithmetic *)

Lemma year_Q : @MILLISECONDS_IN_A_YEAR Q _ == 31557600000.
Proof. reflexivity. Qed.

Lemma month_Q : @MILLISECONDS_IN_A_MONTH Q _ == 2629800000.
Proof. reflexivity. Qed.

(** The millisecond value of a complete components object. *)
Lemma components_ms_eight (y mo w d h mi s ms : Q) :
  components_ms
    (<[ "years" := y ]> (<[ "months" := mo ]> (<[ "weeks" := w ]>
    (<[ "days" := d ]> (<[ "hours" := h ]> (<[ "minutes" := mi ]>
    (<[ "seconds" := s ]> {[ "milliseconds" := ms ]}))))))) ==
  y * 31557600000 + mo * 2629800000 + w * 604800000 + d * 86400000 +
  h * 3600000 + mi * 60000 + s * 1000 + ms.
Proof.
  unfold components_ms. lookup_solve. cbn [from_option id]. unfold_num.
  rewrite year_Q, month_Q. reflexivity.
Qed.

Lemma components_ms_unit (key : string) (f v : Q) :
  (key, f) ∈ unit_factors →
  components_ms ({[ key := v ]} ∪ DEFAULT_TIME) == v * f.
Proof.
  intros Hkey. rewrite <- insert_union_singleton_l.
  unfold unit_factors in Hkey. rewrite !elem_of_cons, elem_of_nil in Hkey.
  unfold components_ms, DEFAULT_TIME.
  destruct Hkey as [Hk|[Hk|[Hk|[Hk|[Hk|[Hk|[Hk|[Hk|[]]]]]]]]];
    injection Hk as -> ->; lookup_solve; cbn [from_option id]; unfold_num;
    change (inject_Z 0) with 0%Q; rewrite ?year_Q, ?month_Q;
    change (@MILLISECONDS_IN_A_WEEK Q _) with 604800000%Q;
    change (@MILLISECONDS_IN_A_DAY Q _) with 86400000%Q;
    change (@MILLISECONDS_IN_AN_HOUR Q _) with 3600000%Q;
    change (@MILLISECONDS_IN_A_MINUTE Q _) with 60000%Q;
    change (@MILLISECONDS_IN_A_SECOND Q _) with 1000%Q; ring.
Qed.

Lemma components_ms_number (n : Q) :
  components_ms (<[ "milliseconds" := n ]> DEFAULT_TIME) == n.
Proof.
  unfold components_ms, DEFAULT_TIME. lookup_solve.
  cbn [from_option id]. unfold_num. change (inject_Z 0) with 0%Q. ring.
Qed.

Section NormalizeExact.
Variable p : string → option (object Q).
Implicit Types (tally time : JSValue Q) (output : object Q) (m r : Q).

Lemma toMilliseconds_number (n : Q) :
  ∃ m, toMilliseconds p (VNumber n) = Some m ∧ m == n.
Proof. eexists. split; [reflexivity|]. apply components_ms_number. Qed.

Lemma toMilliseconds_unit (key : string) (f v : Q) :
  (key, f) ∈ unit_factors →
  ∃ m, toMilliseconds p (VObject {[ key := v ]}) = Some m ∧ m == v * f.
Proof. intros Hkey. eexists. split; [reflexivity|]. by apply components_ms_unit. Qed.

Lemma toUnit_agrees (key : string) (F f : Q) :
  (key, f) ∈ unit_factors → F == f → ¬ f == 0 →
  unit_agrees p (key, toUnit p F) (key, f).
Proof.
  intros Hkey HF Hf. split; [done|]. split; [done|]. unfold toUnit. cbn. split.
  - intros time ->. done.
  - intros time m ->. eexists. split; [reflexivity|]. unfold_num.
    by rewrite HF.
Qed.

Lemma units_agree : Forall2 (unit_agrees p) (units p) unit_factors.
Proof.
  unfold units, unit_factors.
  repeat match goal with
         | |- Forall2 _ (_ :: _) (_ :: _) => apply List.Forall2_cons
         | |- Forall2 _ [] [] => apply List.Forall2_nil
         end.
  1-7: apply toUnit_agrees; [set_solver| reflexivity | done].
  split; [done|]. split; [set_solver|]. cbn. split; [done|].
  intros time m ->. eexists. split; [reflexivity|]. field.
Qed.

(** The loop of [normalizeTime] computes the greedy decomposition of the
    millisecond value of its tally. *)
Lemma normalizeTime_loop us kfs tally output m r :
  Forall2 (unit_agrees p) us kfs →
  toMilliseconds p tally = Some m → m == r →
  ∃ tally' m',
    for_of (normalizeTime_body p) us (tally, output) =
      Some (tally', assign output (decompose kfs r)) ∧
    toMilliseconds p tally' = Some m' ∧ m' == residue kfs r.
Proof.
  intros Hus. revert tally output m r.
  induction Hus as [|[key convertTo] [key' f] us kfs Hu Hus IH];
    intros tally output m r Hm Hmr.
  { exists tally, m. by repeat split. }
  destruct Hu as (Hk & Hin & _ & Hconv). cbn in Hk, Hconv. subst key'.
  destruct (Hconv _ _ Hm) as (c & Hc & Hcm).
  assert (Qtrunc c = Qtrunc (r / f)) as Htr.
  { apply Qtrunc_comp. by rewrite Hcm, Hmr. }
  destruct (toMilliseconds_unit key f (inject_Z (Qtrunc (r / f))) Hin)
    as (y & Hy & Hyv).
  cbn [for_of decompose residue]. unfold normalizeTime_body at 1.
  rewrite Hc, lookup_insert_eq, floorTowardsZero_Qtrunc, Htr.
  unfold subtractTime. rewrite Hm, Hy.
  destruct (toMilliseconds_number (m - y)%num) as (m1 & Hm1 & Hm1v).
  destruct (IH (VNumber (m - y)%num)
              (<[ key := inject_Z (Qtrunc (r / f)) ]> output) m1
              (r - inject_Z (Qtrunc (r / f)) * f)%Q Hm1)
    as (tally' & m' & Hrun & Hm' & Hres).
  { rewrite Hm1v. unfold_num. by rewrite Hyv, Hmr. }
  exists tally', m'. by repeat split.
Qed.

Lemma normalizeTime_fails time :
  toMilliseconds p time = None → normalizeTime p time = None.
Proof.
  intros Hnone. unfold normalizeTime, units. cbn [for_of].
  unfold normalizeTime_body at 1. unfold toYears, toUnit. by rewrite Hnone.
Qed.

Lemma normalizeTime_assign time m :
  toMilliseconds p time = Some m →
  normalizeTime p time = Some (assign DEFAULT_TIME (decompose unit_factors m)).
Proof.
  intros Hm.
  destruct (normalizeTime_loop _ _ time DEFAULT_TIME m m units_agree Hm
              ltac:(reflexivity)) as (tally' & m' & Hrun & _).
  unfold normalizeTime. by rewrite Hrun.
Qed.
End NormalizeExact.

(** The eight assignments override every field of the default. *)
Lemma assign_list_to_map (m : Q) :
  assign DEFAULT_TIME (decompose unit_factors m) = normalize_spec m.
Proof.
  unfold normalize_spec, unit_factors. cbn [decompose].
  set (c1 := inject_Z _). set (r1 := (m - _)%Q).
  set (c2 := inject_Z _). set (r2 := (r1 - _)%Q).
  set (c3 := inject_Z _). set (r3 := (r2 - _)%Q).
  set (c4 := inject_Z _). set (r4 := (r3 - _)%Q).
  set (c5 := inject_Z _). set (r5 := (r4 - _)%Q).
  set (c6 := inject_Z _). set (r6 := (r5 - _)%Q).
  set (c7 := inject_Z _). set (r7 := (r6 - _)%Q).
  set (c8 := inject_Z _).
  clearbody c8 c7 c6 c5 c4 c3 c2 c1.
  unfold assign, DEFAULT_TIME. cbn [foldl list_to_map foldr fst snd uncurry].
  apply map_eq. intros k.
  destruct (decide (k = "years")) as [->|]; [by lookup_solve|].
  destruct (decide (k = "months")) as [->|]; [by lookup_solve|].
  destruct (decide (k = "weeks")) as [->|]; [by lookup_solve|].
  destruct (decide (k = "days")) as [->|]; [by lookup_solve|].
  destruct (decide (k = "hours")) as [->|]; [by lookup_solve|].
  destruct (decide (k = "minutes")) as [->|]; [by lookup_solve|].
  destruct (decide (k = "seconds")) as [->|]; [by lookup_solve|].
  destruct (decide (k = "milliseconds")) as [->|]; [by lookup_solve|].
  rewrite !lookup_insert_ne, lookup_singleton_ne, lookup_empty by congruence.
  done.
Qed.

Lemma normalizeTime_normalize_spec (p : string → option (object Q))
    (time : JSValue Q) :
  normalizeTime p time = normalize_spec <$> toMilliseconds p time.
Proof.
  destruct (toMilliseconds p time) as [m|] eqn:Hm;
    cbn [fmap option_fmap option_map].
  - rewrite (normalizeTime_assign p time m Hm). by rewrite assign_list_to_map.
  - by apply normalizeTime_fails.
Qed.

(** C4: normalization iterates the units in the fixed order years, months,
    weeks, days, hours, minutes, seconds, milliseconds; at each unit the
    component is the integer part towards zero of the running remainder
    expressed in that unit, that many whole units are subtracted from the
    remainder, and the remainder is carried to the next smaller unit.
    [normalizeTime] fails exactly when its input does not resolve to a
    millisecond value, and otherwise returns the decomposition
    [normalize_spec] of that value. *)
Theorem normalizeTime_decomposes (p : string → option (object Q))
    (time : JSValue Q) :
  normalizeTime p time = normalize_spec <$> toMilliseconds p time.
Proof. apply normalizeTime_normalize_spec. Qed.

(** ** The decomposition: reconstruction, integrality, signs *)

Ltac split_Forall :=
  repeat match goal with
         | |- Forall _ (_ :: _) => apply List.Forall_cons
         | |- Forall _ [] => apply List.Forall_nil
         end.








Lemma decompose_nonneg (kfs : list (string * Q)) (r : Q) :
  Forall (λ kf, 0 < kf.2)%Q kfs → (0 <= r)%Q →
  Forall (λ kv, 0 <= kv.2)%Q (decompose kfs r).
Proof.
  intros Hkfs. revert r.
  induction Hkfs as [|[k f] kfs Hf _ IH]; intros r Hr; [done|].
  cbn [decompose]. cbn in Hf.
  destruct (step_nonneg r f Hf Hr) as [Hc [Hr' _]].
  apply Forall_cons. split; [done|]. by apply IH.
Qed.

Lemma unit_factors_positive : Forall (λ kf, 0 < kf.2)%Q unit_factors.
Proof. unfold unit_factors. split_Forall; done. Qed.


Lemma normalize_spec_nonneg (m : Q) (k : string) (v : Q) :
  (0 <= m)%Q → normalize_spec m !! k = Some v → (0 <= v)%Q.
Proof.
  intros Hm Hk. apply elem_of_list_to_map_2 in Hk.
  pose proof (decompose_nonneg _ _ unit_factors_positive Hm) as Hall.
  rewrite Forall_forall in Hall. by apply (Hall (k, v)).
Qed.







(** C8: [add(a, b)] resolves both inputs to their millisecond values and
    returns a duration whose millisecond value is their sum;
    [subtract(a, b)] returns one whose value is the milliseconds of [a]
    minus the milliseconds of [b].  Either result is an instance of
    [Time], whose sole state is that one number, not an object of
    components.  Arithmetic is exact. *)
Theorem add_subtract_milliseconds (σ : Time.store Q) (a b : object Q) :
  ∃ this σ1,
    Time.new a σ = Some (this, σ1) ∧
    (∃ r σ2 v, Time.add this b σ1 = Some (r, σ2) ∧
               Time.toMilliseconds r σ2 = Some (v, σ2) ∧
               v == convertToMilliseconds a + convertToMilliseconds b) ∧
    (∃ r σ2 v, Time.subtract this b σ1 = Some (r, σ2) ∧
               Time.toMilliseconds r σ2 = Some (v, σ2) ∧
               v == convertToMilliseconds a - convertToMilliseconds b).
Proof.
  eexists _, _. split; [reflexivity|]. split.
  - eexists _, _, _. split; [apply add_eq, lookup_insert_eq|]. split.
    + unfold Time.toMilliseconds, Time.milliseconds. by rewrite lookup_insert_eq.
    + apply wrap_Q.
  - eexists _, _, _. split; [apply subtract_eq, lookup_insert_eq|]. split.
    + unfold Time.toMilliseconds, Time.milliseconds. by rewrite lookup_insert_eq.
    + apply wrap_Q.
Qed.

(** ** [sum]: field-wise totals *)

Section Sum.
Context {N : Type} `{!Number N}.
Local Open Scope num_scope.
Variable p : string → option (object N).
Implicit Types (duration output : object N) (parsed : list (object N)).

Lemma DEFAULT_TIME_lookup (k : string) :
  (DEFAULT_TIME : object N) !! k =
  if decide (k ∈ UNIT_KEYS) then Some (lit 0) else None.
Proof.
  unfold DEFAULT_TIME.
  destruct (decide (k ∈ UNIT_KEYS)) as [Hk|Hk].
  - unfold UNIT_KEYS in Hk. rewrite !elem_of_cons, elem_of_nil in Hk.
    destruct Hk as [->|[->|[->|[->|[->|[->|[->|[->|[]]]]]]]]]; by lookup_solve.
  - rewrite !lookup_insert_ne, lookup_singleton_ne; [done|..];
      intros <-; apply Hk; unfold UNIT_KEYS; set_solver.
Qed.

Lemma DEFAULT_TIME_complete : complete DEFAULT_TIME.
Proof. intros k Hk. rewrite DEFAULT_TIME_lookup. by rewrite decide_True. Qed.

Lemma toTimeObject_complete (time : JSValue N) (o : object N) :
  parser_complete p → toTimeObject p time = Some o → complete o.
Proof.
  intros Hp Ho k Hk.
  assert (∀ o' : object N, is_Some ((o' ∪ DEFAULT_TIME) !! k)) as Hunion.
  { intros o'. apply lookup_union_is_Some. right. by apply DEFAULT_TIME_complete. }
  destruct time; cbn in Ho; try (injection Ho as <-; by apply Hunion).
  - by apply (Hp _ _ Ho).
  - injection Ho as <-. rewrite lookup_insert. case_decide; [by eexists|].
    by apply DEFAULT_TIME_complete.
Qed.







End Sum.

(** *** The millisecond value of a sum, in exact arithmetic *)

Lemma decompose_comp (kfs : list (string * Q)) (r r' : Q) :
  r == r' → decompose kfs r = decompose kfs r'.
Proof.
  revert r r'. induction kfs as [|[k f] kfs IH]; intros r r' Hr; [done|].
  cbn [decompose].
  assert (Qtrunc (r / f) = Qtrunc (r' / f)) as ->
    by (apply Qtrunc_comp; by rewrite Hr).
  f_equal. apply IH. by rewrite Hr.
Qed.

Lemma normalize_spec_comp (m m' : Q) : m == m' → normalize_spec m = normalize_spec m'.
Proof. intros Hm. unfold normalize_spec. by rewrite (decompose_comp _ _ _ Hm). Qed.







(** ** The coercion entry point *)

(** C6, as amended: the declared input type admits only a string, a
    number or a partial components object, and nothing checks it at run
    time: for an input of any other shape [toTimeObject] raises no type
    error, it takes the object branch and returns the all-zero default.
    The only failure of [toTimeObject] is the parser's, on a string. *)
Theorem toTimeObject_other_shapes {N : Type} `{!Number N}
    (p : string → option (object N)) (time : JSValue N) :
  accepted_shape time = false →
  toTimeObject p time = Some DEFAULT_TIME ∧
  (∀ t, toTimeObject p t = None → ∃ s, t = VString s ∧ p s = None).
Proof.
  intros Hshape. split.
  - destruct time; try discriminate Hshape; cbn;
      by rewrite (left_id_L ∅ (∪)).
  - intros t Ht. destruct t; try discriminate Ht. by eexists.
Qed.

(** [null] is none of the three shapes, and is coerced to the default. *)
Lemma toTimeObject_null :
  accepted_shape (@VNull Q) = false ∧
  typeof (@VNull Q) = TObject ∧
  toTimeObject parse_PT0S (@VNull Q) =
    Some (<[ "years" := 0%Q ]> (<[ "months" := 0%Q ]> (<[ "weeks" := 0%Q ]>
         (<[ "days" := 0%Q ]> (<[ "hours" := 0%Q ]>
         (<[ "minutes" := 0%Q ]> (<[ "seconds" := 0%Q ]>
         {[ "milliseconds" := 0%Q ]}))))))).
Proof.
  split; [reflexivity|]. split; [reflexivity|]. vm_compute. reflexivity.
Qed.

(** ** Fields that [Time] does not read *)

(** C10: [convertToMilliseconds], and with it the constructor of [Time],
    honours only the fields days, hours, minutes, seconds and
    milliseconds of its argument: whatever fields years, months and weeks
    an object has contribute nothing to the millisecond value, and an
    object with only such fields yields 0 milliseconds; the eight-unit
    millisecond value [components_ms] does count them. *)
Theorem convertToMilliseconds_ignores_years_months_weeks
    {N : Type} `{!Number N} (time : object N) (y mo w : N) :
  convertToMilliseconds
    (<[ "years" := y ]> (<[ "months" := mo ]> (<[ "weeks" := w ]> time))) =
    convertToMilliseconds time ∧
  convertToMilliseconds
    (delete "years" (delete "months" (delete "weeks" time))) =
    convertToMilliseconds time ∧
  (∀ σ : Time.store N,
     Time.new (<[ "years" := y ]> (<[ "months" := mo ]> (<[ "weeks" := w ]> time))) σ =
     Time.new time σ) ∧
  (∀ y' mo' w' : Q,
     convertToMilliseconds
       (<[ "years" := y' ]> (<[ "months" := mo' ]> {[ "weeks" := w' ]})) == 0 ∧
     components_ms
       (<[ "years" := y' ]> (<[ "months" := mo' ]> {[ "weeks" := w' ]})) ==
       y' * 31557600000 + mo' * 2629800000 + w' * 604800000).
Proof.
  assert (convertToMilliseconds
            (<[ "years" := y ]> (<[ "months" := mo ]> (<[ "weeks" := w ]> time))) =
          convertToMilliseconds time) as Hins.
  { unfold convertToMilliseconds. by rewrite !lookup_insert_ne by done. }
  split; [done|]. split; [|split].
  - unfold convertToMilliseconds. by rewrite !lookup_delete_ne by done.
  - intros σ. unfold Time.new. by rewrite Hins.
  - intros y' mo' w'. split.
    + unfold convertToMilliseconds. lookup_solve. reflexivity.
    + unfold components_ms. lookup_solve. cbn [from_option id]. unfold_num.
      rewrite year_Q, month_Q. change (inject_Z 0) with 0%Q.
      change (@MILLISECONDS_IN_A_WEEK Q _) with 604800000%Q. ring.
Qed.

(** ** [floorTowardsZero] *)



(** ** The theorems at concrete inputs *)

Lemma parse_PT0S_complete {N : Type} `{!Number N} :
  parser_complete (@parse_PT0S N _).
Proof.
  intros s d. unfold parse_PT0S. case_decide; [|discriminate].
  intros [= <-]. apply DEFAULT_TIME_complete.
Qed.



Lemma toTimeObject_other_shapes_witness :
  accepted_shape (@VNull Q) = false ∧
  toTimeObject parse_PT0S (@VNull Q) = Some DEFAULT_TIME.
Proof.
  split; [reflexivity|].
  apply (toTimeObject_other_shapes parse_PT0S VNull). reflexivity.
Defined.

(** Five milliseconds divided by zero. *)
Lemma divide_by_zero_witness :
  ∃ r σ' v,
    Time.divide 0%nat 0%float {[ 0%nat := 5%float ]} = Some (r, σ') ∧
    Time.toMilliseconds r σ' = Some (v, σ') ∧ v = infinity.
Proof.
  destruct (divide_by_zero {[ 0%nat := 5%float ]} 0%nat 5%float)
    as (r & σ' & v & Hrun & Hv & Hpos & _); [reflexivity|].
  exists r, σ', v. split; [exact Hrun|]. split; [exact Hv|].
  apply Hpos. reflexivity.
Defined.

(** Adding an hour to an instance of five milliseconds. *)
Lemma operations_do_not_mutate_witness :
  ∃ r σ',
    Time.add 0%nat {[ "hours" := 1%Q ]} {[ 0%nat := 5%Q ]} = Some (r, σ') ∧
    r ≠ 0%nat ∧ σ' !! 0%nat = Some 5%Q.
Proof.
  destruct (operations_do_not_mutate {[ 0%nat := 5%Q ]} 0%nat 5%Q
              {[ "hours" := 1%Q ]} 2%Q)
    with (op := Time.add 0%nat ({[ "hours" := 1%Q ]} : object Q))
    as (r & σ' & Hrun & Hne & _ & _ & Hthis & _).
  - reflexivity.
  - apply list_elem_of_here.
  - exists r, σ'. split; [exact Hrun|]. split; [exact Hne|exact Hthis].
Defined.

(** * Further properties *)

(** ** The class [Time]: observers and how operations compose *)








(** ** Ranges of the components *)







(** X5: [toComponents] works on temporaries: it leaves [this] and every
    other instance as they were.  Its result is a function of the value
    held, so two instances with the same value have the same components,
    and [toJSON] returns what [toComponents] returns.  This holds for
    every number model. *)
Theorem toComponents_pure {N : Type} `{!Number N} (σ : Time.store N)
    (this : Time.ref) (ms : N) :
  σ !! this = Some ms →
  ∃ σ', Time.toComponents this σ = Some (components_of ms, σ') ∧
        Time.toJSON this σ = Some (components_of ms, σ') ∧
        (∀ l v, σ !! l = Some v → σ' !! l = Some v) ∧
        (∀ other, σ !! other = Some ms →
           ∃ σ'', Time.toComponents other σ = Some (components_of ms, σ'')).
Proof.
  intros Hms. destruct (toComponents_eq σ this ms Hms) as (σ' & Hrun & Hframe).
  exists σ'. split; [done|]. split; [done|]. split; [done|].
  intros other Hother.
  destruct (toComponents_eq σ other ms Hother) as (σ'' & Hrun' & _).
  by exists σ''.
Qed.

Lemma toComponents_pure_witness :
  ∃ σ', Time.toComponents 0%nat {[ 0%nat := 5010%Q ]} =
          Some (components_of 5010%Q, σ') ∧
        σ' !! 0%nat = Some 5010%Q.
Proof.
  destruct (toComponents_pure {[ 0%nat := 5010%Q ]} 0%nat 5010%Q)
    as (σ' & Hrun & _ & Hframe & _).
  - reflexivity.
  - exists σ'. split; [exact Hrun|]. apply Hframe. reflexivity.
Defined.

(** ** More on [floorTowardsZero] *)

Lemma Qtrunc_opp (x : Q) : Qtrunc (- x) = (- Qtrunc x)%Z.
Proof.
  destruct x as [n d]. unfold Qtrunc. cbn. apply Z.quot_opp_l. lia.
Qed.

Lemma Qtrunc_le (x y : Q) : (x <= y)%Q → (Qtrunc x <= Qtrunc y)%Z.
Proof.
  intros Hxy.
  destruct (Qlt_le_dec x 0) as [Hx|Hx]; destruct (Qlt_le_dec y 0) as [Hy|Hy].
  - rewrite !Qtrunc_neg by done. by apply Qceiling_resp_le.
  - rewrite Zle_Qle.
    destruct (Qtrunc_neg_bounds x) as [[_ H1] _]; [lra|].
    destruct (Qtrunc_nonneg_bounds y Hy) as [[H2 _] _]. lra.
  - lra.
  - rewrite !Qtrunc_nonneg by done. by apply Qfloor_resp_le.
Qed.

(** X6: in exact arithmetic [floorTowardsZero] is odd (negating the
    argument negates the result, which [Math.floor] does not do),
    monotone and idempotent, and it leaves whole numbers unchanged. *)
Theorem floorTowardsZero_odd_monotone :
  (∀ x : Q, floorTowardsZero (- x)%Q = (- floorTowardsZero x)%Q) ∧
  (∀ x y : Q, (x <= y)%Q → (floorTowardsZero x <= floorTowardsZero y)%Q) ∧
  (∀ x : Q, floorTowardsZero (floorTowardsZero x) = floorTowardsZero x) ∧
  (∀ z : Z, floorTowardsZero (inject_Z z) = inject_Z z).
Proof.
  split; [|split; [|split]].
  - intros x. rewrite !floorTowardsZero_Qtrunc, Qtrunc_opp. reflexivity.
  - intros x y Hxy. rewrite !floorTowardsZero_Qtrunc, <- Zle_Qle.
    by apply Qtrunc_le.
  - intros x. rewrite !floorTowardsZero_Qtrunc. by rewrite Qtrunc_inject_Z.
  - intros z. by rewrite floorTowardsZero_Qtrunc, Qtrunc_inject_Z.
Qed.

(** X7: in binary64 [floorTowardsZero] returns NaN, the infinities and
    every finite float with a non-negative exponent (a whole number of
    magnitude [2^52] or more) unchanged. *)
Theorem floorTowardsZero_unrounded (x : float) :
  float_unrounded x = true → floorTowardsZero x = x.
Proof.
  unfold float_unrounded, floorTowardsZero, js_or.
  cbn [lit num_ltb truthy Math_floor Math_ceil float_number].
  change (float_of_Z 0) with 0%float. rewrite float_ltb_zero.
  unfold float_truthy, float_ceil, float_floor.
  destruct (Prim2SF x) as [[]|[]| |[] m e] eqn:Hsf; intros Hx; try done.
  - by rewrite Hsf.
  - rewrite Hx, Hsf. done.
  - by rewrite Hx.
Qed.

Lemma floorTowardsZero_unrounded_witness :
  floorTowardsZero 9007199254740992%float = 9007199254740992%float ∧
  floorTowardsZero neg_infinity = neg_infinity ∧
  floorTowardsZero nan = nan.
Proof.
  split; [|split].
  - exact (floorTowardsZero_unrounded 9007199254740992%float eq_refl).
  - exact (floorTowardsZero_unrounded neg_infinity eq_refl).
  - exact (floorTowardsZero_unrounded nan eq_refl).
Defined.

(** ** What an instance holds, in binary64 *)

(** X8: in binary64 the constructor stores the [milliseconds] it is
    given exactly (adding the zero of the absent fields does not round),
    except that a negative zero becomes the positive zero; hence no
    instance made by [add], [subtract], [multiply] or [divide] holds a
    negative zero. *)
Theorem float_wrap (v : float) :
  wrap v = (if is_neg_zero v then 0%float else v) ∧
  is_neg_zero (wrap v) = false ∧
  ∀ (σ : Time.store float) this ms (time : object float) k op,
    σ !! this = Some ms →
    op ∈ [ Time.add this time; Time.subtract this time;
           Time.multiply this k; Time.divide this k ] →
    ∃ r σ' w, op σ = Some (r, σ') ∧ σ' !! r = Some w ∧ is_neg_zero w = false.
Proof.
  assert (∀ u : float, wrap u = (if is_neg_zero u then 0%float else u)) as Hwrap.
  { intros u. unfold wrap. rewrite convertToMilliseconds_milliseconds.
    cbn [lit num_add num_mul float_number].
    match goal with
    | |- (?c + _)%float = _ =>
        replace c with 0%float by (vm_compute; reflexivity)
    end.
    apply Prim2SF_inj. rewrite FloatAxioms.add_spec. unfold is_neg_zero.
    destruct (Prim2SF u) as [[]|[]| |[] ? ?] eqn:Hu;
      rewrite ?Hu; reflexivity. }
  assert (∀ u : float, is_neg_zero (wrap u) = false) as Hnz.
  { intros u. rewrite Hwrap. destruct (is_neg_zero u) eqn:Hu; [reflexivity|done]. }
  split; [apply Hwrap|]. split; [apply Hnz|].
  intros σ this ms time k op Hms Hop.
  rewrite !elem_of_cons, elem_of_nil in Hop.
  destruct Hop as [->|[->|[->|[->|[]]]]].
  - eexists _, _, _. split; [by apply add_eq|]. split; [apply lookup_insert_eq|apply Hnz].
  - eexists _, _, _. split; [by apply subtract_eq|]. split; [apply lookup_insert_eq|apply Hnz].
  - eexists _, _, _. split; [by apply multiply_eq|]. split; [apply lookup_insert_eq|apply Hnz].
  - eexists _, _, _. split; [by apply divide_eq|]. split; [apply lookup_insert_eq|apply Hnz].
Qed.

(** ** More on [normalizeTime] *)





(** X10: the result of [normalizeTime] depends on the input's millisecond
    value only, not on how the input apportions it to units: two inputs
    with the same millisecond value normalize to the same object. *)
Theorem normalizeTime_by_value (p : string → option (object Q))
    (time time' : JSValue Q) (m m' : Q) :
  toMilliseconds p time = Some m → toMilliseconds p time' = Some m' →
  m == m' →
  normalizeTime p time = normalizeTime p time' ∧
  is_Some (normalizeTime p time).
Proof.
  intros Hm Hm' Heq. rewrite !normalizeTime_normalize_spec, Hm, Hm'.
  cbn [fmap option_fmap option_map].
  rewrite (normalize_spec_comp _ _ Heq). split; [done|by eexists].
Qed.

(** Ninety minutes, and an hour and thirty minutes. *)
Lemma normalizeTime_by_value_witness :
  normalizeTime parse_PT0S (VObject {[ "minutes" := 90%Q ]}) =
  normalizeTime parse_PT0S
    (VObject (<[ "hours" := 1%Q ]> {[ "minutes" := 30%Q ]})).
Proof.
  refine (proj1 (normalizeTime_by_value parse_PT0S
    (VObject {[ "minutes" := 90%Q ]})
    (VObject (<[ "hours" := 1%Q ]> {[ "minutes" := 30%Q ]}))
    (components_ms ({[ "minutes" := 90%Q ]} ∪ DEFAULT_TIME))
    (components_ms ((<[ "hours" := 1%Q ]> {[ "minutes" := 30%Q ]}) ∪ DEFAULT_TIME))
    eq_refl eq_refl _)).
  vm_compute. reflexivity.
Defined.








(** ** The coercion, once more *)

Lemma union_default_complete {N : Type} `{!Number N} (c : object N) :
  complete c → c ∪ DEFAULT_TIME = c.
Proof.
  intros Hc. apply map_eq. intros k.
  destruct (c !! k) as [v|] eqn:Hk.
  - by apply lookup_union_Some_l.
  - apply lookup_union_None. split; [done|].
    rewrite DEFAULT_TIME_lookup. case_decide as Hin; [|done].
    destruct (Hc k Hin) as [v Hv]. congruence.
Qed.

(** X13: what [toTimeObject] returns has the eight unit fields, and
    coercing it again returns it unchanged.  For an object input the
    fields given override the zeros of the default and any other property
    of the input is kept. *)
Theorem toTimeObject_idempotent {N : Type} `{!Number N}
    (p : string → option (object N)) (time : JSValue N) (c : object N) :
  parser_complete p → toTimeObject p time = Some c →
  complete c ∧
  toTimeObject p (VObject c) = Some c ∧
  (∀ o, time = VObject o →
        ∀ k, c !! k = match o !! k with
                      | Some v => Some v
                      | None => DEFAULT_TIME !! k
                      end).
Proof.
  intros Hp Hc.
  pose proof (toTimeObject_complete p time c Hp Hc) as Hcomplete.
  split; [done|]. split.
  - cbn [toTimeObject own_properties]. by rewrite union_default_complete.
  - intros o ->. cbn [toTimeObject own_properties] in Hc. injection Hc as <-.
    intros k. destruct (o !! k) as [v|] eqn:Hk.
    + by apply lookup_union_Some_l.
    + rewrite lookup_union_r; done.
Qed.

Lemma toTimeObject_idempotent_witness :
  toTimeObject parse_PT0S
    (VObject (<[ "hours" := 2%Q ]> (<[ "label" := 7%Q ]> DEFAULT_TIME))) =
  Some (<[ "hours" := 2%Q ]> (<[ "label" := 7%Q ]> DEFAULT_TIME)).
Proof.
  refine (proj1 (proj2 (toTimeObject_idempotent parse_PT0S
    (VObject (<[ "hours" := 2%Q ]> {[ "label" := 7%Q ]}))
    (<[ "hours" := 2%Q ]> (<[ "label" := 7%Q ]> DEFAULT_TIME))
    parse_PT0S_complete _))).
  vm_compute. reflexivity.
Defined.

(** ** More on [sum] *)






(** ** [sum]: order and nesting, in exact arithmetic *)











(** ** Negation *)

Lemma decompose_opp (kfs : list (string * Q)) (r r' : Q) :
  r' == - r →
  decompose kfs r' = prod_map id Qopp <$> decompose kfs r.
Proof.
  revert r r'. induction kfs as [|[k f] kfs IH]; intros r r' Hr; [done|].
  cbn [decompose fmap list_fmap].
  assert (Qtrunc (r' / f) = (- Qtrunc (r / f))%Z) as Htr.
  { rewrite <- Qtrunc_opp. apply Qtrunc_comp. rewrite Hr.
    unfold Qdiv. ring. }
  rewrite Htr. f_equal.
  apply IH. rewrite Hr, inject_Z_opp. ring.
Qed.

(** X17: normalization is symmetric under negation, as truncation
    towards zero (and not [Math.floor]) makes it: when one input has the
    opposite millisecond value of another, each field of its normalized
    form is the opposite of the other's. *)
Theorem normalizeTime_opposite (p : string → option (object Q))
    (time time' : JSValue Q) (m m' : Q) :
  toMilliseconds p time = Some m → toMilliseconds p time' = Some m' →
  m' == - m →
  normalizeTime p time' = negate <$> normalizeTime p time.
Proof.
  intros Hm Hm' Hopp. rewrite !normalizeTime_normalize_spec, Hm, Hm'.
  cbn [fmap option_fmap option_map]. apply (f_equal Some).
  unfold normalize_spec. rewrite (decompose_opp _ _ _ Hopp).
  unfold negate. apply list_to_map_fmap.
Qed.

Lemma normalizeTime_opposite_witness :
  normalizeTime parse_PT0S (VNumber (-90061001)%Q) =
  negate <$> normalizeTime parse_PT0S (VNumber 90061001%Q).
Proof.
  apply (normalizeTime_opposite parse_PT0S (VNumber 90061001%Q)
           (VNumber (-90061001)%Q)
           (components_ms (<[ "milliseconds" := 90061001%Q ]> DEFAULT_TIME))
           (components_ms (<[ "milliseconds" := (-90061001)%Q ]> DEFAULT_TIME))
           eq_refl eq_refl).
  vm_compute. reflexivity.
Defined.

(** ** More concrete inputs *)

Lemma floorTowardsZero_odd_monotone_witness :
  (floorTowardsZero (1 # 2)%Q <= floorTowardsZero (3 # 2)%Q)%Q.
Proof.
  apply (proj1 (proj2 floorTowardsZero_odd_monotone) (1 # 2)%Q (3 # 2)%Q).
  by vm_compute.
Defined.

(** Zero times minus one is a negative zero; the instance holds the
    positive zero. *)
Lemma float_wrap_witness :
  ∃ r σ' w,
    Time.multiply 0%nat (-1)%float {[ 0%nat := 0%float ]} = Some (r, σ') ∧
    σ' !! r = Some w ∧ is_neg_zero w = false.
Proof.
  apply (proj2 (proj2 (float_wrap 0%float)) {[ 0%nat := 0%float ]} 0%nat
           0%float ∅ (-1)%float (Time.multiply 0%nat (-1)%float)).
  - reflexivity.
  - apply list_elem_of_further, list_elem_of_further, list_elem_of_here.
Defined.

